(** * Pose-detection overlay: a shallow embedding of [vision/pose-detection.py]

    The program reads camera frames, runs a pose model on each frame and draws
    boxes, keypoints and skeleton edges on the frame before showing it.  The
    embedding follows [main] line by line:

    - tensor entries (class, confidence, corners, keypoint coordinates) are
      finite floats and are modelled as rationals; [int(x)] on them is
      truncation toward zero;
    - the frame is an abstract pixel grid that is only touched through the
      four [cv2] drawing calls, modelled by one function [cv2_draw];
    - the loop body is written in a small state-and-exception monad whose
      state holds the frame (mutated in place) and the local variable
      [people_count] (which survives from one iteration to the next);
    - indexing ([kps_all_np[i]], [kps_xy[a]], [KEYPOINT_NAMES[j]]) raises
      [IndexError] out of range, reading an unbound local raises
      [UnboundLocalError];
    - the camera, the model and the window are an environment that scripts,
      for each loop iteration, what [cap.read], [model], [cv2.imshow] and
      [cv2.waitKey] answer; every external call is recorded in a trace. *)

From Stdlib Require Import ZArith QArith Qabs List String Ascii Bool Lia.
From Stdlib Require Import DecimalString Sorted.
Import ListNotations.

Local Open Scope string_scope.
Local Open Scope list_scope.
Local Open Scope Z_scope.

(** ** Python values *)

(** A finite float.  [0.5] is [1 # 2]. *)
Definition pyfloat : Type := Q.

Bind Scope Q_scope with pyfloat.

(** [int(x)] for a finite float: the fractional part is dropped. *)
Definition py_int (x : pyfloat) : Z := Z.quot (Qnum x) (Zpos (Qden x)).

(** [str(n)] / [f"{n}"] for an integer. *)
Definition py_str (n : Z) : string := NilZero.string_of_int (Z.to_int n).

(** Nearest integer of the non-negative fraction [n / d], ties to the even
    neighbour: the rounding that float formatting applies to the exact value. *)
Definition round_half_even (n d : Z) : Z :=
  let q := n / d in
  let r := n mod d in
  match 2 * r ?= d with
  | Lt => q
  | Gt => q + 1
  | Eq => if Z.even q then q else q + 1
  end.

(** Two decimal digits, zero padded. *)
Definition two_digits (n : Z) : string :=
  if n <? 10 then ("0" ++ py_str n)%string else py_str n.

(** The sign a negative float is printed with. *)
Definition sign_of (x : pyfloat) : string :=
  if Qnum x <? 0 then "-" else "".

(** [f"{x:.2f}"]. *)
Definition format_2f (x : pyfloat) : string :=
  let hundredths := round_half_even (Z.abs (Qnum x) * 100) (Zpos (Qden x)) in
  let whole := py_str (hundredths / 100) in
  let cents := two_digits (hundredths mod 100) in
  (sign_of x ++ whole ++ "." ++ cents)%string.



(** ** Module constants *)

Definition KEYPOINT_NAMES : list string :=
  [ "nose"; "left_eye"; "right_eye"; "left_ear"; "right_ear";
    "left_shoulder"; "right_shoulder"; "left_elbow"; "right_elbow";
    "left_wrist"; "right_wrist"; "left_hip"; "right_hip";
    "left_knee"; "right_knee"; "left_ankle"; "right_ankle" ].

Definition SKELETON : list (nat * nat) :=
  [ (5, 6); (5, 7); (7, 9); (6, 8); (8, 10);
    (5, 11); (6, 12); (11, 12);
    (11, 13); (13, 15); (12, 14); (14, 16);
    (0, 1); (0, 2); (1, 3); (2, 4);
    (0, 5); (0, 6) ]%nat.

(** ** What the model returns *)

(** One element of [result.boxes]: row 0 of its [cls], [conf] and [xyxy]. *)
Record Box : Type := mkBox {
  cls : pyfloat;
  conf : pyfloat;
  xyxy : pyfloat * pyfloat * pyfloat * pyfloat
}.

(** One detection's keypoints: rows of [(x, y)]. *)
Definition KpRow : Type := list (pyfloat * pyfloat).

(** [result.keypoints.xy]: a device tensor (it has [.cpu()]) or already an
    array. *)
Inductive KpsArray : Type :=
| TorchTensor (rows : list KpRow)
| NdArray (rows : list KpRow).

Record Keypoints : Type := mkKeypoints { xy : option KpsArray }.

Record Result : Type := mkResult {
  boxes : option (list Box);
  keypoints : option Keypoints
}.

(** [getattr(result.keypoints, "xy", None)] *)
Definition getattr_xy (k : option Keypoints) : option KpsArray :=
  match k with
  | None => None
  | Some kp => xy kp
  end.

(** [kps_all.cpu().numpy() if hasattr(kps_all, "cpu") else kps_all] *)
Definition to_numpy (k : KpsArray) : list KpRow :=
  match k with
  | TorchTensor rows => rows
  | NdArray rows => rows
  end.

Definition class_id (box : Box) : Z := py_int (cls box).

Definition is_person (box : Box) : bool := class_id box =? 0.

(** ** Drawing calls *)

Definition Point : Type := Z * Z.
Definition Color : Type := Z * Z * Z.

Inductive Font : Type := FONT_HERSHEY_SIMPLEX.

Inductive DrawCall : Type :=
| Rectangle (pt1 pt2 : Point) (color : Color) (thickness : Z)
| PutText (text : string) (org : Point) (font : Font) (scale : Q)
          (color : Color) (thickness : Z)
| Circle (center : Point) (radius : Z) (color : Color) (thickness : Z)
| Line (pt1 pt2 : Point) (color : Color) (thickness : Z).

Definition GREEN : Color := (0, 255, 0).
Definition RED : Color := (0, 0, 255).
Definition YELLOW : Color := (0, 255, 255).
Definition BLUE : Color := (255, 0, 0).

(** ** Exceptions *)

Inductive exn : Type :=
| IndexError
| UnboundLocalError
| ExternalError (what : string)
| KeyboardInterrupt.

Inductive res (A : Type) : Type :=
| Ok (a : A)
| Raise (e : exn).

Arguments Ok {A} a.
Arguments Raise {A} e.

(** A recording canvas: a frame that is the list of the calls drawn on it. *)
Definition Canvas : Type := list DrawCall.

Definition canvas_draw (c : DrawCall) (f : Canvas) : Canvas := f ++ [c].

(** ** Sample detections *)

(** A person with confidence 0.5 and corners (10, 20)-(110, 220). *)
Definition a_person : Box := mkBox 0 (1 # 2) (10, 20, 110, 220)%Q.

(** A detection of class 16. *)
Definition a_dog : Box := mkBox 16 (9 # 10) (0, 0, 50, 50)%Q.

(** One person and no keypoint rows. *)
Definition one_person_result : Result :=
  mkResult (Some [a_person]) (Some (mkKeypoints (Some (NdArray [])))).

(** Three keypoints only: nose and both eyes. *)
Definition short_row : KpRow := [(60, 40)%Q; (55, 35)%Q; (65, 35)%Q].

(** All 17 keypoints. *)
Definition full_row : KpRow := repeat (43 # 4, 81 # 4) 17.

Section Annotator.

(** The frame type and the [cv2] drawing primitive on it. *)
Variable Frame : Type.
Variable cv2_draw : DrawCall -> Frame -> Frame.

(** ** The monad of the loop body *)

(** The part of [main]'s state the drawing code touches: the frame, which the
    [cv2] calls mutate in place, and the local [people_count] ([None] while it
    is unbound). *)
Record St : Type := mkSt {
  frame : Frame;
  people_count : option Z
}.

(** A computation returns a value or raises; the state it leaves is kept in
    both cases. *)
Definition M (A : Type) : Type := St -> res A * St.

Definition ret {A : Type} (a : A) : M A := fun s => (Ok a, s).

Definition raise {A : Type} (e : exn) : M A := fun s => (Raise e, s).

Definition bind {A B : Type} (m : M A) (k : A -> M B) : M B :=
  fun s =>
    match m s with
    | (Ok a, s') => k a s'
    | (Raise e, s') => (Raise e, s')
    end.

Notation "x <- m ;; k" := (bind m (fun x => k))
  (at level 61, m at next level, right associativity).
Notation "m ;; k" := (bind m (fun _ => k))
  (at level 61, right associativity).

(** [people_count = n] *)
Definition set_people_count (n : Z) : M unit :=
  fun s => (Ok tt, mkSt (frame s) (Some n)).

(** Reading [people_count]. *)
Definition get_people_count : M Z :=
  fun s =>
    match people_count s with
    | Some n => (Ok n, s)
    | None => (Raise UnboundLocalError, s)
    end.

(** One [cv2] drawing call on [frame]. *)
Definition cv2_call (c : DrawCall) : M unit :=
  fun s => (Ok tt, mkSt (cv2_draw c (frame s)) (people_count s)).

(** [l[i]] for a non-negative index. *)
Definition py_getitem {A : Type} (l : list A) (i : nat) : M A :=
  match nth_error l i with
  | Some x => ret x
  | None => raise IndexError
  end.

(** [for i, x in enumerate(l): body], counting from [i]. *)
Fixpoint for_enumerate {A : Type} (body : nat -> A -> M unit)
         (i : nat) (l : list A) : M unit :=
  match l with
  | [] => ret tt
  | x :: l' => body i x ;; for_enumerate body (S i) l'
  end.

(** [for x in l: body] *)
Fixpoint for_each {A : Type} (body : A -> M unit) (l : list A) : M unit :=
  match l with
  | [] => ret tt
  | x :: l' => body x ;; for_each body l'
  end.

(** ** The drawing code (lines 55-113) *)

(** Lines 93-100: one keypoint, its marker and its name. *)
Definition draw_keypoint (j : nat) (kp : pyfloat * pyfloat) : M unit :=
  let '(kx, ky) := kp in
  let x := py_int kx in
  let y := py_int ky in
  cv2_call (Circle (x, y) 4 RED (-1)) ;;
  if (j <? List.length KEYPOINT_NAMES)%nat then
    name <- py_getitem KEYPOINT_NAMES j ;;
    cv2_call (PutText name (x + 5, y - 5) FONT_HERSHEY_SIMPLEX (2 # 5) YELLOW 1)
  else ret tt.

(** Lines 103-107: one skeleton connection. *)
Definition draw_edge (kps_xy : KpRow) (e : nat * nat) : M unit :=
  let '(a, b) := e in
  if (a <? List.length kps_xy)%nat && (b <? List.length kps_xy)%nat then
    pA <- py_getitem kps_xy a ;;
    pB <- py_getitem kps_xy b ;;
    let '(xA, yA) := (py_int (fst pA), py_int (snd pA)) in
    let '(xB, yB) := (py_int (fst pB), py_int (snd pB)) in
    cv2_call (Line (xA, yA) (xB, yB) BLUE 2)
  else ret tt.

(** Lines 70-107: the body of [for i, box in enumerate(boxes)].  Each
    [continue] ends the body. *)
Definition draw_box (kps_all_np : list KpRow) (i : nat) (box : Box) : M unit :=
  let class_id := py_int (cls box) in
  if negb (class_id =? 0) then ret tt
  else
    n <- get_people_count ;;
    set_people_count (n + 1) ;;
    let '(c1, c2, c3, c4) := xyxy box in
    let '(x1, y1, x2, y2) := (py_int c1, py_int c2, py_int c3, py_int c4) in
    let conf := conf box in
    cv2_call (Rectangle (x1, y1) (x2, y2) GREEN 2) ;;
    cv2_call (PutText ("Person " ++ format_2f conf)%string (x1, y1 - 8)
                      FONT_HERSHEY_SIMPLEX (1 # 2) GREEN 2) ;;
    if (List.length kps_all_np <=? i)%nat then ret tt
    else
      kps_xy <- py_getitem kps_all_np i ;;
      for_enumerate draw_keypoint 0 kps_xy ;;
      for_each (draw_edge kps_xy) SKELETON.

(** Lines 55-113: the body of [for result in results]. *)
Definition annotate_result (result : Result) : M unit :=
  let boxes := boxes result in
  let kps_all := getattr_xy (keypoints result) in
  match boxes, kps_all with
  | Some boxes, Some kps_all =>
      let kps_all_np := to_numpy kps_all in
      set_people_count 0 ;;
      for_enumerate (draw_box kps_all_np) 0 boxes ;;
      n <- get_people_count ;;
      cv2_call (PutText ("People detected: " ++ py_str n)%string (10, 30)
                        FONT_HERSHEY_SIMPLEX 1 GREEN 2)
  | _, _ => ret tt
  end.

(** Lines 55-113: [for result in results]. *)
Definition annotate (results : list Result) : M unit :=
  for_each annotate_result results.

(** ** The main loop (lines 21-124) *)

(** The calls [main] makes on the camera, the model, the window and the
    console, in the order it makes them.  [EvImshow] carries the frame that
    is shown. *)
Inductive Event : Type :=
| EvVideoCapture
| EvIsOpened
| EvSet
| EvNamedWindow
| EvResizeWindow
| EvPrint (line : string)
| EvYOLO
| EvRead
| EvModel
| EvImshow (shown : Frame)
| EvWaitKey
| EvRelease
| EvDestroyAllWindows.

(** What the environment answers during one iteration: the value of
    [cap.read()], of [model(frame, verbose=False)], of [cv2.imshow] and of
    [cv2.waitKey(1)], each of which may raise instead. *)
Record Iteration : Type := mkIteration {
  on_read : res (bool * Frame);
  on_model : res (list Result);
  on_imshow : res unit;
  on_waitKey : res Z
}.

(** How one pass through the body of [while True] ends: it falls through to
    the next iteration (with the locals it leaves), it reaches a [break], or
    an exception leaves the body. *)
Inductive Control : Type :=
| Next (locals : option Z)
| Break
| Throw (e : exn).

(** Lines 46-120: the body of [while True].  [pc] is [people_count] as the
    previous iteration left it. *)
Definition loop_body (it : Iteration) (pc : option Z) : list Event * Control :=
  match on_read it with
  | Raise e => ([EvRead], Throw e)
  | Ok (ok, captured) =>
      if negb ok then
        ([EvRead; EvPrint "Error: Failed to capture frame"], Break)
      else
        match on_model it with
        | Raise e => ([EvRead; EvModel], Throw e)
        | Ok results =>
            match annotate results (mkSt captured pc) with
            | (Raise e, _) => ([EvRead; EvModel], Throw e)
            | (Ok _, s) =>
                match on_imshow it with
                | Raise e => ([EvRead; EvModel; EvImshow (frame s)], Throw e)
                | Ok _ =>
                    match on_waitKey it with
                    | Raise e =>
                        ([EvRead; EvModel; EvImshow (frame s); EvWaitKey],
                         Throw e)
                    | Ok key =>
                        if Z.land key 255 =? 113 then
                          ([EvRead; EvModel; EvImshow (frame s); EvWaitKey],
                           Break)
                        else
                          ([EvRead; EvModel; EvImshow (frame s); EvWaitKey],
                           Next (people_count s))
                    end
                end
            end
        end
  end.

(** Lines 45-120: [while True], run against the iterations the environment
    scripts.  When the script is used up the loop is still running
    ([Next]). *)
Fixpoint main_loop (script : list Iteration) (pc : option Z)
  : list Event * Control :=
  match script with
  | [] => ([], Next pc)
  | it :: rest =>
      match loop_body it pc with
      | (ev, Next pc') =>
          let '(ev', c) := main_loop rest pc' in (ev ++ ev', c)
      | (ev, c) => (ev, c)
      end
  end.

(** How a run of [main] ends. *)
Inductive Exit : Type :=
| Returned
| Propagated (e : exn)
| StillRunning.

(** Lines 29-43, up to the [try]. *)
Definition setup_events : list Event :=
  [ EvSet; EvSet; EvNamedWindow; EvResizeWindow;
    EvPrint "Loading YOLO11 Pose model..."; EvYOLO;
    EvPrint "Starting pose detection. Press 'q' to quit." ].

(** Lines 23-43: everything up to the [try], when the camera opens and the
    model loads. *)
Definition start_events : list Event :=
  [EvVideoCapture; EvIsOpened] ++ setup_events.

(** Lines 121-124: the [finally] block. *)
Definition cleanup_events : list Event :=
  [ EvRelease; EvDestroyAllWindows; EvPrint "Pose detection stopped." ].

(** Lines 21-124.  [opened] is the answer of [cap.isOpened()], [on_load] that
    of [YOLO("yolo11n-pose.pt")]. *)
Definition main (opened : bool) (on_load : res unit) (script : list Iteration)
  : list Event * Exit :=
  if negb opened then
    ([EvVideoCapture; EvIsOpened; EvPrint "Error: Could not open camera"],
     Returned)
  else
    match on_load with
    | Raise e =>
        ([EvVideoCapture; EvIsOpened; EvSet; EvSet; EvNamedWindow;
          EvResizeWindow; EvPrint "Loading YOLO11 Pose model..."; EvYOLO],
         Propagated e)
    | Ok _ =>
        match main_loop script None with
        | (ev, Next _) => (start_events ++ ev, StillRunning)
        | (ev, Break) => (start_events ++ ev ++ cleanup_events, Returned)
        | (ev, Throw e) => (start_events ++ ev ++ cleanup_events, Propagated e)
        end
    end.

(** ** What is drawn, in closed form *)

(** The calls of a list applied to a frame, first call first. *)
Definition paint (calls : list DrawCall) (f : Frame) : Frame :=
  fold_left (fun g c => cv2_draw c g) calls f.

(** [enumerate(l)], counting from [i]. *)
Definition enumerate_from {A : Type} (i : nat) (l : list A) : list (nat * A) :=
  combine (seq i (List.length l)) l.

(** The integer pixel a keypoint is drawn at. *)
Definition pixel (kp : pyfloat * pyfloat) : Point :=
  (py_int (fst kp), py_int (snd kp)).

Definition marker_call (kp : pyfloat * pyfloat) : DrawCall :=
  Circle (pixel kp) 4 RED (-1).

Definition name_call (j : nat) (kp : pyfloat * pyfloat) : DrawCall :=
  PutText (nth j KEYPOINT_NAMES EmptyString)
          (fst (pixel kp) + 5, snd (pixel kp) - 5)
          FONT_HERSHEY_SIMPLEX (2 # 5) YELLOW 1.

(** Marker of keypoint [j], and its name when the table has one. *)
Definition keypoint_calls (jkp : nat * (pyfloat * pyfloat)) : list DrawCall :=
  let '(j, kp) := jkp in
  marker_call kp :: (if (j <? 17)%nat then [name_call j kp] else []).

Definition edge_in_range (kps_xy : KpRow) (e : nat * nat) : bool :=
  (fst e <? List.length kps_xy)%nat && (snd e <? List.length kps_xy)%nat.

Definition edge_call (kps_xy : KpRow) (e : nat * nat) : DrawCall :=
  Line (pixel (nth (fst e) kps_xy (0, 0)%Q))
       (pixel (nth (snd e) kps_xy (0, 0)%Q)) BLUE 2.

(** The lines of the connections whose two ends exist. *)
Definition skeleton_calls (kps_xy : KpRow) : list DrawCall :=
  map (edge_call kps_xy) (filter (edge_in_range kps_xy) SKELETON).

Definition corner1 (box : Box) : Point :=
  let '(c1, c2, _, _) := xyxy box in (py_int c1, py_int c2).

Definition corner2 (box : Box) : Point :=
  let '(_, _, c3, c4) := xyxy box in (py_int c3, py_int c4).

Definition rectangle_call (box : Box) : DrawCall :=
  Rectangle (corner1 box) (corner2 box) GREEN 2.

Definition label_call (box : Box) : DrawCall :=
  PutText ("Person " ++ format_2f (conf box))%string
          (fst (corner1 box), snd (corner1 box) - 8)
          FONT_HERSHEY_SIMPLEX (1 # 2) GREEN 2.

(** Keypoint marks and skeleton lines of the detection at index [i]: none
    when the keypoint array has no row [i]. *)
Definition pose_calls (kps_all_np : list KpRow) (i : nat) : list DrawCall :=
  match nth_error kps_all_np i with
  | Some kps_xy =>
      flat_map keypoint_calls (enumerate_from 0 kps_xy) ++ skeleton_calls kps_xy
  | None => []
  end.

(** Everything drawn for the person [box] at index [i]. *)
Definition person_calls (kps_all_np : list KpRow) (ib : nat * Box)
  : list DrawCall :=
  rectangle_call (snd ib) :: label_call (snd ib) :: pose_calls kps_all_np (fst ib).

Definition persons (i : nat) (boxes : list Box) : list (nat * Box) :=
  filter (fun ib => is_person (snd ib)) (enumerate_from i boxes).

Definition count_people (boxes : list Box) : Z :=
  Z.of_nat (List.length (filter is_person boxes)).

Definition overlay_call (n : Z) : DrawCall :=
  PutText ("People detected: " ++ py_str n)%string (10, 30)
          FONT_HERSHEY_SIMPLEX 1 GREEN 2.

(** Whether a result has both its boxes and its keypoint array. *)
Definition drawable (r : Result) : bool :=
  match boxes r, getattr_xy (keypoints r) with
  | Some _, Some _ => true
  | _, _ => false
  end.

(** Everything drawn for one result. *)
Definition result_calls (r : Result) : list DrawCall :=
  match boxes r, getattr_xy (keypoints r) with
  | Some bs, Some k =>
      flat_map (person_calls (to_numpy k)) (persons 0 bs)
        ++ [overlay_call (count_people bs)]
  | _, _ => []
  end.

(** [people_count] after one result, from its value before. *)
Definition count_after (pc : option Z) (r : Result) : option Z :=
  match boxes r, getattr_xy (keypoints r) with
  | Some bs, Some _ => Some (count_people bs)
  | _, _ => pc
  end.

(** The number of class-0 detections over all the results of a frame. *)
Definition total_people (results : list Result) : Z :=
  fold_right
    (fun r acc => match boxes r with
                  | Some bs => count_people bs + acc
                  | None => acc
                  end) 0 results.

(** The classes of drawing calls. *)
Definition is_rectangle (c : DrawCall) : bool :=
  match c with Rectangle _ _ _ _ => true | _ => false end.
Definition is_text (c : DrawCall) : bool :=
  match c with PutText _ _ _ _ _ _ => true | _ => false end.
Definition is_circle (c : DrawCall) : bool :=
  match c with Circle _ _ _ _ => true | _ => false end.
Definition is_line (c : DrawCall) : bool :=
  match c with Line _ _ _ _ => true | _ => false end.

(** ** When an iteration leaves the loop *)

(** The iteration reads no frame: [cap.read()] answers [ret = False]. *)
Definition read_fails (it : Iteration) : bool :=
  match on_read it with
  | Ok (false, _) => true
  | _ => false
  end.

(** The iteration falls through to the next one. *)
Definition falls_through (it : Iteration) (pc : option Z) : bool :=
  match snd (loop_body it pc) with
  | Next _ => true
  | _ => false
  end.

(** Calls made from inside the loop body. *)
Definition is_body_event (e : Event) : bool :=
  match e with
  | EvRead | EvModel | EvImshow _ | EvWaitKey => true
  | _ => false
  end.

Definition is_release (e : Event) : bool :=
  match e with EvRelease => true | _ => false end.

Definition is_destroy (e : Event) : bool :=
  match e with EvDestroyAllWindows => true | _ => false end.

Definition count_events (p : Event -> bool) (tr : list Event) : nat :=
  List.length (filter p tr).

(** The run is over: [main] returned or an exception left it. *)
Definition terminated (x : Exit) : bool :=
  match x with
  | StillRunning => false
  | _ => true
  end.

(** How [main] ends when the loop ends with [c]. *)
Definition exit_of (c : Control) : Exit :=
  match c with
  | Next _ => StillRunning
  | Break => Returned
  | Throw e => Propagated e
  end.

(** ** A reading of "rounded" *)

(** [z] is an integer nearest to [x]: at most one half away. *)
Definition nearest_int (z : Z) (x : pyfloat) : Prop :=
  (Qabs (x - inject_Z z) <= 1 # 2)%Q.

(** Python's [round(x)]: nearest integer, ties to even. *)
Definition py_round (x : pyfloat) : Z :=
  let r := round_half_even (Z.abs (Qnum x)) (Zpos (Qden x)) in
  if Qnum x <? 0 then - r else r.

(** ** Iterations that keep the loop going *)

(** Nothing raises, a frame is read, and the key polled is not [q]. *)
Definition keeps_running (it : Iteration) : bool :=
  match on_read it, on_model it, on_imshow it, on_waitKey it with
  | Ok (true, _), Ok _, Ok _, Ok key => negb (key mod 256 =? 113)
  | _, _, _, _ => false
  end.

Definition is_read (e : Event) : bool :=
  match e with EvRead => true | _ => false end.


Definition is_imshow (e : Event) : bool :=
  match e with EvImshow _ => true | _ => false end.


(** ** Running the drawing code *)

Lemma paint_app (a b : list DrawCall) (f : Frame) :
  paint (a ++ b) f = paint b (paint a f).
Proof. unfold paint. apply fold_left_app. Qed.

Lemma bind_ok {A B : Type} (m : M A) (k : A -> M B) (s s' : St) (a : A) :
  m s = (Ok a, s') -> bind m k s = k a s'.
Proof. intros H. unfold bind. rewrite H. reflexivity. Qed.

Lemma py_getitem_in_range {A : Type} (l : list A) (i : nat) (d : A) (s : St) :
  (i < List.length l)%nat -> py_getitem l i s = (Ok (nth i l d), s).
Proof.
  intros H. unfold py_getitem.
  rewrite (nth_error_nth' l d H). reflexivity.
Qed.

Lemma enumerate_from_cons {A : Type} (i : nat) (x : A) (l : list A) :
  enumerate_from i (x :: l) = (i, x) :: enumerate_from (S i) l.
Proof. reflexivity. Qed.

Lemma draw_keypoint_run (j : nat) (kp : pyfloat * pyfloat) (s : St) :
  draw_keypoint j kp s
  = (Ok tt, mkSt (paint (keypoint_calls (j, kp)) (frame s)) (people_count s)).
Proof.
  destruct kp as [kx ky]. unfold draw_keypoint, keypoint_calls.
  change (List.length KEYPOINT_NAMES) with 17%nat.
  destruct (Nat.ltb_spec j 17) as [Hj | Hj].
  - unfold bind at 1. cbn [cv2_call].
    erewrite bind_ok
      by (apply py_getitem_in_range with (d := EmptyString); exact Hj).
    reflexivity.
  - reflexivity.
Qed.

Lemma for_enumerate_keypoints (kps_xy : KpRow) :
  forall (j : nat) (s : St),
    for_enumerate draw_keypoint j kps_xy s
    = (Ok tt,
       mkSt (paint (flat_map keypoint_calls (enumerate_from j kps_xy)) (frame s))
            (people_count s)).
Proof.
  induction kps_xy as [| kp rest IH]; intros j s.
  - destruct s; reflexivity.
  - cbn [for_enumerate]. erewrite bind_ok by apply draw_keypoint_run.
    rewrite IH, enumerate_from_cons. cbn [flat_map frame people_count].
    rewrite paint_app. reflexivity.
Qed.

Lemma draw_edge_run (kps_xy : KpRow) (e : nat * nat) (s : St) :
  draw_edge kps_xy e s
  = (Ok tt,
     mkSt (paint (if edge_in_range kps_xy e then [edge_call kps_xy e] else [])
                 (frame s))
          (people_count s)).
Proof.
  destruct e as [a b]. unfold draw_edge, edge_in_range. cbn [fst snd].
  destruct (Nat.ltb_spec a (List.length kps_xy)) as [Ha | Ha]; cbn [andb].
  - destruct (Nat.ltb_spec b (List.length kps_xy)) as [Hb | Hb].
    + erewrite bind_ok
        by (apply py_getitem_in_range with (d := (0, 0)%Q); exact Ha).
      erewrite bind_ok
        by (apply py_getitem_in_range with (d := (0, 0)%Q); exact Hb).
      reflexivity.
    + destruct s; reflexivity.
  - destruct s; reflexivity.
Qed.

Lemma for_each_edges (kps_xy : KpRow) (edges : list (nat * nat)) :
  forall s : St,
    for_each (draw_edge kps_xy) edges s
    = (Ok tt,
       mkSt (paint (map (edge_call kps_xy) (filter (edge_in_range kps_xy) edges))
                   (frame s))
            (people_count s)).
Proof.
  induction edges as [| e rest IH]; intros s.
  - destruct s; reflexivity.
  - cbn [for_each]. erewrite bind_ok by apply draw_edge_run.
    rewrite IH. cbn [filter frame people_count].
    destruct (edge_in_range kps_xy e); reflexivity.
Qed.

Lemma draw_box_other (kps_all_np : list KpRow) (i : nat) (box : Box) (s : St) :
  is_person box = false -> draw_box kps_all_np i box s = (Ok tt, s).
Proof.
  unfold is_person, class_id, draw_box. intros H. rewrite H. reflexivity.
Qed.

Lemma draw_box_person (kps_all_np : list KpRow) (i : nat) (box : Box)
      (f : Frame) (n : Z) :
  is_person box = true ->
  draw_box kps_all_np i box (mkSt f (Some n))
  = (Ok tt, mkSt (paint (person_calls kps_all_np (i, box)) f) (Some (n + 1))).
Proof.
  unfold is_person, class_id, draw_box. intros H. rewrite H. cbn [negb].
  unfold person_calls, pose_calls, rectangle_call, label_call, corner1, corner2.
  cbn [fst snd].
  destruct (xyxy box) as [[[c1 c2] c3] c4].
  unfold bind at 1. cbn [get_people_count people_count].
  unfold bind at 1. cbn [set_people_count frame people_count].
  unfold bind at 1. cbn [cv2_call frame people_count].
  unfold bind at 1. cbn [cv2_call frame people_count].
  destruct (Nat.leb_spec (List.length kps_all_np) i) as [Hi | Hi].
  - apply nth_error_None in Hi. rewrite Hi. reflexivity.
  - destruct (nth_error kps_all_np i) as [kps_xy |] eqn:E.
    + unfold py_getitem. unfold bind at 1. rewrite E. cbn [ret].
      erewrite bind_ok by apply for_enumerate_keypoints.
      rewrite for_each_edges. cbn [frame people_count paint fold_left].
      unfold skeleton_calls. fold (paint (flat_map keypoint_calls
        (enumerate_from 0 kps_xy) ++ map (edge_call kps_xy)
        (filter (edge_in_range kps_xy) SKELETON))).
      rewrite <- paint_app. reflexivity.
    + apply nth_error_None in E. lia.
Qed.

Lemma count_people_cons (box : Box) (bs : list Box) :
  count_people (box :: bs)
  = (if is_person box then 1 else 0) + count_people bs.
Proof.
  unfold count_people. cbn [filter].
  destruct (is_person box); cbn [List.length]; lia.
Qed.

Lemma persons_cons (i : nat) (box : Box) (bs : list Box) :
  persons i (box :: bs)
  = if is_person box then (i, box) :: persons (S i) bs else persons (S i) bs.
Proof. reflexivity. Qed.

Lemma for_enumerate_boxes (kps_all_np : list KpRow) (bs : list Box) :
  forall (i : nat) (f : Frame) (n : Z),
    for_enumerate (draw_box kps_all_np) i bs (mkSt f (Some n))
    = (Ok tt,
       mkSt (paint (flat_map (person_calls kps_all_np) (persons i bs)) f)
            (Some (n + count_people bs))).
Proof.
  induction bs as [| box rest IH]; intros i f n.
  - cbn. rewrite Z.add_0_r. reflexivity.
  - cbn [for_enumerate]. rewrite persons_cons, count_people_cons.
    destruct (is_person box) eqn:E.
    + erewrite bind_ok by (apply draw_box_person; exact E).
      rewrite IH. cbn [flat_map]. rewrite paint_app.
      rewrite Z.add_assoc. reflexivity.
    + erewrite bind_ok by (apply draw_box_other; exact E).
      rewrite IH. rewrite Z.add_0_l. reflexivity.
Qed.

Lemma annotate_result_run (r : Result) (s : St) :
  annotate_result r s
  = (Ok tt,
     mkSt (paint (result_calls r) (frame s)) (count_after (people_count s) r)).
Proof.
  unfold annotate_result, result_calls, count_after.
  destruct (boxes r) as [bs |]; [| destruct s; reflexivity].
  destruct (getattr_xy (keypoints r)) as [k |]; [| destruct s; reflexivity].
  unfold bind at 1. cbn [set_people_count].
  erewrite bind_ok by apply for_enumerate_boxes.
  unfold bind. cbn [get_people_count people_count cv2_call frame].
  rewrite paint_app. reflexivity.
Qed.

Lemma annotate_run (results : list Result) :
  forall s : St,
    annotate results s
    = (Ok tt,
       mkSt (paint (flat_map result_calls results) (frame s))
            (fold_left count_after results (people_count s))).
Proof.
  unfold annotate.
  induction results as [| r rest IH]; intros s.
  - destruct s; reflexivity.
  - cbn [for_each]. erewrite bind_ok by apply annotate_result_run.
    rewrite IH. cbn [flat_map fold_left frame people_count].
    rewrite paint_app. reflexivity.
Qed.

Lemma result_calls_skipped (r : Result) :
  drawable r = false -> result_calls r = [].
Proof.
  unfold drawable, result_calls.
  destruct (boxes r); [destruct (getattr_xy (keypoints r)) |];
    intros H; [discriminate H | reflexivity | reflexivity].
Qed.

Lemma count_after_skipped (pc : option Z) (r : Result) :
  drawable r = false -> count_after pc r = pc.
Proof.
  unfold drawable, count_after.
  destruct (boxes r); [destruct (getattr_xy (keypoints r)) |];
    intros H; [discriminate H | reflexivity | reflexivity].
Qed.




(** ** Facts about the closed forms *)

Lemma count_people_count_occ (bs : list Box) :
  count_people bs = Z.of_nat (count_occ Z.eq_dec (map class_id bs) 0).
Proof.
  unfold count_people. f_equal.
  induction bs as [| box rest IH]; [reflexivity |].
  cbn [filter map count_occ]. unfold is_person at 1.
  destruct (Z.eqb_spec (class_id box) 0) as [E | E];
    destruct (Z.eq_dec (class_id box) 0) as [E' | E']; try contradiction;
    cbn [List.length]; rewrite IH; reflexivity.
Qed.

Lemma enumerate_from_nth {A : Type} (l : list A) :
  forall (i j : nat) (x : A),
    In (j, x) (enumerate_from i l)
    <-> (i <= j)%nat /\ nth_error l (j - i) = Some x.
Proof.
  induction l as [| y rest IH]; intros i j x.
  - cbn. split; [intros [] | intros [_ H]].
    destruct (j - i)%nat; discriminate H.
  - rewrite enumerate_from_cons. cbn [In]. rewrite IH. split.
    + intros [H | [Hle H]].
      * inversion H; subst. rewrite Nat.sub_diag. split; [lia | reflexivity].
      * split; [lia |].
        replace (j - i)%nat with (S (j - S i)) by lia. exact H.
    + intros [Hle H]. destruct (Nat.eq_dec i j) as [-> | Hne].
      * rewrite Nat.sub_diag in H. cbn in H. inversion H. left; reflexivity.
      * right. split; [lia |].
        replace (j - i)%nat with (S (j - S i)) in H by lia. exact H.
Qed.

Lemma persons_in (bs : list Box) (j : nat) (box : Box) :
  In (j, box) (persons 0 bs)
  <-> nth_error bs j = Some box /\ is_person box = true.
Proof.
  unfold persons. rewrite filter_In, enumerate_from_nth, Nat.sub_0_r.
  cbn [snd]. split.
  - intros [[_ H] Hp]. split; assumption.
  - intros [H Hp]. split; [split; [lia | exact H] | exact Hp].
Qed.

Lemma persons_sorted (bs : list Box) :
  forall i : nat,
    Forall (fun ib => (i <= fst ib)%nat) (persons i bs)
    /\ StronglySorted lt (map fst (persons i bs)).
Proof.
  induction bs as [| box rest IH]; intros i.
  - split; constructor.
  - destruct (IH (S i)) as [Hge Hs]. rewrite persons_cons.
    assert (Hge' : Forall (fun ib => (i <= fst ib)%nat) (persons (S i) rest)).
    { eapply Forall_impl; [| exact Hge]. cbn. intros; lia. }
    destruct (is_person box).
    + split.
      * constructor; [cbn; lia | exact Hge'].
      * cbn [map fst]. constructor; [exact Hs |].
        apply Forall_map. eapply Forall_impl; [| exact Hge]. cbn. intros; lia.
    + split; assumption.
Qed.

Lemma keypoint_marks (kps_xy : KpRow) :
  forall j : nat,
    filter is_circle (flat_map keypoint_calls (enumerate_from j kps_xy))
    = map marker_call kps_xy
    /\ filter is_text (flat_map keypoint_calls (enumerate_from j kps_xy))
       = map (fun jk => name_call (fst jk) (snd jk))
             (filter (fun jk => (fst jk <? 17)%nat) (enumerate_from j kps_xy))
    /\ Forall (fun c => is_circle c || is_text c = true)
              (flat_map keypoint_calls (enumerate_from j kps_xy)).
Proof.
  induction kps_xy as [| kp rest IH]; intros j.
  - repeat split; constructor.
  - destruct (IH (S j)) as [Hc [Ht Hall]].
    rewrite enumerate_from_cons. cbn [flat_map keypoint_calls filter fst].
    destruct (j <? 17)%nat; cbn [app filter is_circle is_text map fst snd];
      rewrite Hc, Ht; repeat split; repeat constructor; exact Hall.
Qed.

Lemma skeleton_lines (kps_xy : KpRow) :
  Forall (fun c => is_line c = true) (skeleton_calls kps_xy).
Proof.
  unfold skeleton_calls. apply Forall_map. apply Forall_forall.
  intros e _. reflexivity.
Qed.


(** ** Facts about [int] and the two-decimal format *)


(** [int] drops the fractional part: same sign, magnitude rounded down. *)
Lemma py_int_truncates (x : pyfloat) :
  py_int x = Z.sgn (Qnum x) * (Z.abs (Qnum x) / Zpos (Qden x)).
Proof.
  unfold py_int. rewrite Z.quot_div by discriminate.
  cbn [Z.sgn Z.abs]. rewrite Z.mul_1_r. reflexivity.
Qed.

(** [int x] lies between zero and [x], less than one away from [x]. *)
Lemma py_int_toward_zero (x : pyfloat) :
  (Qabs (inject_Z (py_int x)) <= Qabs x)%Q
  /\ (Qabs (x - inject_Z (py_int x)) < 1)%Q.
Proof.
  rewrite py_int_truncates. destruct x as [n d].
  cbn [Qnum Qden]. unfold Qabs, Qle, Qlt, Qminus, Qplus, Qopp, inject_Z.
  cbn [Qnum Qden].
  pose proof (Z.div_mod (Z.abs n) (Zpos d) ltac:(discriminate)) as Hdm.
  pose proof (Z.mod_pos_bound (Z.abs n) (Zpos d) ltac:(reflexivity)) as Hb.
  pose proof (Z.div_pos (Z.abs n) (Zpos d) (Z.abs_nonneg n) ltac:(reflexivity))
    as Hq.
  set (q := Z.abs n / Zpos d) in *. set (r := Z.abs n mod Zpos d) in *.
  rewrite Pos2Z.inj_mul. change (Zpos 1) with 1.
  destruct (Z.abs_spec n) as [[Hn Ha] | [Hn Ha]];
    destruct (Z.sgn_spec n) as [[Hn' Hs] | [[Hn' Hs] | [Hn' Hs]]];
    try lia; rewrite Hs; split; nia.
Qed.




(** ** Running the main loop *)

Lemma count_events_app (p : Event -> bool) (a b : list Event) :
  count_events p (a ++ b) = (count_events p a + count_events p b)%nat.
Proof. unfold count_events. rewrite filter_app, length_app. reflexivity. Qed.

Lemma loop_body_no_cleanup (it : Iteration) (pc : option Z) :
  count_events is_release (fst (loop_body it pc)) = 0%nat
  /\ count_events is_destroy (fst (loop_body it pc)) = 0%nat.
Proof.
  unfold loop_body.
  destruct (on_read it) as [[[|] captured] | e]; cbn [negb];
    [| split; reflexivity | split; reflexivity].
  destruct (on_model it) as [results | e]; [| split; reflexivity].
  destruct (annotate results (mkSt captured pc)) as [[[] | e] s];
    [| split; reflexivity].
  destruct (on_imshow it) as [[] | e]; [| split; reflexivity].
  destruct (on_waitKey it) as [key | e]; [| split; reflexivity].
  destruct (Z.land key 255 =? 113); split; reflexivity.
Qed.

Lemma main_loop_no_cleanup (script : list Iteration) :
  forall pc : option Z,
    count_events is_release (fst (main_loop script pc)) = 0%nat
    /\ count_events is_destroy (fst (main_loop script pc)) = 0%nat.
Proof.
  induction script as [| it rest IH]; intros pc.
  - split; reflexivity.
  - cbn [main_loop]. pose proof (loop_body_no_cleanup it pc) as [Hr Hd].
    destruct (loop_body it pc) as [ev [pc' | | e]]; cbn [fst] in *;
      [| split; assumption | split; assumption].
    specialize (IH pc'). destruct IH as [Hr' Hd'].
    destruct (main_loop rest pc') as [ev' c]. cbn [fst] in *.
    rewrite !count_events_app. split; lia.
Qed.

Lemma main_loop_app (pre : list Iteration) :
  forall (pc0 pc : option Z) (rest : list Iteration),
    snd (main_loop pre pc0) = Next pc ->
    main_loop (pre ++ rest) pc0
    = (fst (main_loop pre pc0) ++ fst (main_loop rest pc),
       snd (main_loop rest pc)).
Proof.
  induction pre as [| it pre' IH]; intros pc0 pc rest H.
  - cbn in H. inversion H; subst. cbn [app main_loop fst].
    destruct (main_loop rest pc); reflexivity.
  - cbn [app main_loop] in *.
    destruct (loop_body it pc0) as [ev [pc' | | e]]; cbn [snd] in H;
      [| discriminate H | discriminate H].
    destruct (main_loop pre' pc') as [ev' c] eqn:E. cbn [snd] in H. subst c.
    rewrite (IH pc' pc rest) by (rewrite E; reflexivity).
    rewrite E. cbn [fst snd]. rewrite app_assoc. reflexivity.
Qed.

Lemma main_loop_leaves (it : Iteration) (post : list Iteration) (pc : option Z) :
  falls_through it pc = false -> main_loop (it :: post) pc = loop_body it pc.
Proof.
  unfold falls_through. cbn [main_loop].
  destruct (loop_body it pc) as [ev [pc' | | e]]; cbn [snd]; intros H;
    [discriminate H | reflexivity | reflexivity].
Qed.

Lemma main_loop_inv (script : list Iteration) :
  forall pc0 : option Z,
    terminated (exit_of (snd (main_loop script pc0))) = true ->
    exists (pre : list Iteration) (it : Iteration) (post : list Iteration)
           (pc : option Z),
      script = pre ++ it :: post
      /\ snd (main_loop pre pc0) = Next pc
      /\ falls_through it pc = false.
Proof.
  induction script as [| it rest IH]; intros pc0 H.
  - discriminate H.
  - destruct (falls_through it pc0) eqn:E.
    + unfold falls_through in E. cbn [main_loop] in H.
      destruct (loop_body it pc0) as [ev [pc' | | e]] eqn:B; cbn [snd] in E;
        [| discriminate E | discriminate E].
      destruct (main_loop rest pc') as [ev' c] eqn:R. cbn [snd] in H.
      destruct (IH pc') as [pre [it' [post [pc [Hs [Hp Hf]]]]]].
      { rewrite R. exact H. }
      exists (it :: pre), it', post, pc. subst rest.
      split; [reflexivity |]. split; [| exact Hf].
      cbn [main_loop]. rewrite B.
      destruct (main_loop pre pc') as [ev'' c'']. exact Hp.
    + exists [], it, rest, pc0. repeat split. exact E.
Qed.

Lemma main_run (pre : list Iteration) (it : Iteration) (post : list Iteration)
      (pc : option Z) :
  snd (main_loop pre None) = Next pc ->
  falls_through it pc = false ->
  main true (Ok tt) (pre ++ it :: post)
  = (start_events ++ (fst (main_loop pre None) ++ fst (loop_body it pc))
       ++ cleanup_events,
     exit_of (snd (loop_body it pc))).
Proof.
  intros Hpre Hit. unfold main. cbn [negb].
  rewrite (main_loop_app pre None pc (it :: post) Hpre).
  rewrite (main_loop_leaves it post pc Hit).
  unfold falls_through in Hit.
  destruct (snd (loop_body it pc)) as [pc' | | e];
    [discriminate Hit | reflexivity | reflexivity].
Qed.

(** ** The claims *)

(** C1 (as amended).  For every result whose boxes and keypoint array are
    present, the drawing code ends without an exception, [people_count] is
    then the number of that result's detections whose class id is 0, whatever
    other classes are present, and the last call drawn is the overlay showing
    that number.  The count is set back to 0 for each result: after a list of
    results it is the count of the last result alone, not a total. *)
Theorem C1_people_count_per_result :
  forall (bs : list Box) (k : KpsArray) (s : St) (earlier : list Result),
    count_people bs = Z.of_nat (count_occ Z.eq_dec (map class_id bs) 0)
    /\ (exists calls : list DrawCall,
          annotate_result (mkResult (Some bs) (Some (mkKeypoints (Some k)))) s
          = (Ok tt,
             mkSt (paint (calls ++ [overlay_call (count_people bs)]) (frame s))
                  (Some (count_people bs))))
    /\ people_count
         (snd (annotate
                 (earlier ++ [mkResult (Some bs) (Some (mkKeypoints (Some k)))])
                 s))
       = Some (count_people bs).
Proof.
  intros bs k s earlier. split; [apply count_people_count_occ |]. split.
  - exists (flat_map (person_calls (to_numpy k)) (persons 0 bs)).
    rewrite annotate_result_run. reflexivity.
  - rewrite annotate_run. cbn [snd people_count].
    rewrite fold_left_app. reflexivity.
Qed.

(** C2 (as amended).  For a result whose boxes are present but empty and
    whose keypoint array is present, the frame is left as it was except for
    one text drawn at (10, 30) reading "People detected: 0".  For a result
    whose boxes or keypoint array are absent, and for an empty list of
    results, the frame is left exactly as it was: no overlay is drawn. *)
Theorem C2_empty_or_absent_detections :
  forall (s : St) (k : KpsArray) (b : option (list Box))
         (kp : option Keypoints),
    annotate_result (mkResult (Some []) (Some (mkKeypoints (Some k)))) s
    = (Ok tt,
       mkSt (cv2_draw (PutText "People detected: 0" (10, 30)
                               FONT_HERSHEY_SIMPLEX 1 GREEN 2) (frame s))
            (Some 0))
    /\ annotate_result (mkResult None kp) s = (Ok tt, s)
    /\ annotate_result (mkResult b None) s = (Ok tt, s)
    /\ annotate_result (mkResult b (Some (mkKeypoints None))) s = (Ok tt, s)
    /\ annotate [] s = (Ok tt, s).
Proof.
  intros s k b kp. split; [| split; [| split; [| split]]].
  - rewrite annotate_result_run. reflexivity.
  - rewrite annotate_result_run. destruct s; reflexivity.
  - rewrite annotate_result_run. unfold result_calls, count_after.
    cbn [boxes keypoints getattr_xy]. destruct b, s; reflexivity.
  - rewrite annotate_result_run. unfold result_calls, count_after.
    cbn [boxes keypoints getattr_xy xy]. destruct b, s; reflexivity.
  - reflexivity.
Qed.


(** C4.  For a result with boxes and keypoint array present, the calls are
    drawn in this order: for each person, in the order of the boxes (the
    persons are the boxes of class 0, each with its index, indices
    increasing), the rectangle, then the label, then the keypoint markers and
    names, then the skeleton lines; and after the last person the
    people-count overlay. *)
Theorem C4_drawing_order :
  forall (bs : list Box) (k : KpsArray) (s : St),
    annotate_result (mkResult (Some bs) (Some (mkKeypoints (Some k)))) s
    = (Ok tt,
       mkSt (paint (flat_map (person_calls (to_numpy k)) (persons 0 bs)
                      ++ [overlay_call (count_people bs)])
                   (frame s))
            (Some (count_people bs)))
    /\ (forall (j : nat) (box : Box),
          In (j, box) (persons 0 bs)
          <-> nth_error bs j = Some box /\ class_id box = 0)
    /\ StronglySorted lt (map fst (persons 0 bs))
    /\ (forall ib : nat * Box,
          exists marks lines : list DrawCall,
            person_calls (to_numpy k) ib
            = [rectangle_call (snd ib); label_call (snd ib)] ++ marks ++ lines
            /\ Forall (fun c => is_circle c || is_text c = true) marks
            /\ Forall (fun c => is_line c = true) lines)
    /\ (forall results : list Result,
          annotate results s
          = (Ok tt,
             mkSt (paint (flat_map result_calls results) (frame s))
                  (fold_left count_after results (people_count s)))).
Proof.
  intros bs k s.
  assert (Hall : forall results : list Result,
             annotate results s
             = (Ok tt,
                mkSt (paint (flat_map result_calls results) (frame s))
                     (fold_left count_after results (people_count s))))
    by (intros results; apply annotate_run).
  split; [apply annotate_result_run |]. split.
  { intros j box. rewrite persons_in. unfold is_person.
    rewrite Z.eqb_eq. reflexivity. }
  split; [apply persons_sorted |].
  split; [| exact Hall].
  intros [i box]. unfold person_calls, pose_calls. cbn [fst snd].
  destruct (nth_error (to_numpy k) i) as [kps_xy |].
  - exists (flat_map keypoint_calls (enumerate_from 0 kps_xy)),
      (skeleton_calls kps_xy).
    split; [reflexivity |]. split; [apply keypoint_marks | apply skeleton_lines].
  - exists [], []. split; [reflexivity |]. split; constructor.
Qed.

(** C5.  For a detection whose class id is not 0 the body of the box loop
    ends at once: it raises nothing and leaves the frame and [people_count]
    as they were, so no rectangle, label, keypoint mark or line is drawn for
    it. *)
Theorem C5_non_person_draws_nothing :
  forall (kps_all_np : list KpRow) (i : nat) (box : Box) (s : St),
    class_id box <> 0 ->
    draw_box kps_all_np i box s = (Ok tt, s).
Proof.
  intros kps_all_np i box s H. apply draw_box_other.
  unfold is_person. apply Z.eqb_neq. exact H.
Qed.


(** C7 (as amended).  For a keypoint [(kx, ky)] the marker is a circle of
    radius 4 centred at [(int kx, int ky)], where [int] drops the fractional
    part (the result lies between zero and the coordinate, less than one away
    from it); the name, when the index is below 17, is drawn at that centre
    offset by (+5, -5); and a skeleton line, when both ends are inside the
    row, joins the pixels obtained in the same way from its two keypoints. *)
Theorem C7_marks_at_truncated_pixels :
  forall (j : nat) (kx ky : pyfloat) (s : St) (kps_xy : KpRow) (a b : nat),
    draw_keypoint j (kx, ky) s
    = (Ok tt,
       mkSt (paint (Circle (py_int kx, py_int ky) 4 RED (-1)
                      :: (if (j <? 17)%nat then
                            [PutText (nth j KEYPOINT_NAMES EmptyString)
                                     (py_int kx + 5, py_int ky - 5)
                                     FONT_HERSHEY_SIMPLEX (2 # 5) YELLOW 1]
                          else []))
                   (frame s))
            (people_count s))
    /\ draw_edge kps_xy (a, b) s
       = (Ok tt,
          mkSt (paint (if (a <? List.length kps_xy)%nat
                          && (b <? List.length kps_xy)%nat
                       then
                         [Line (py_int (fst (nth a kps_xy (0, 0)%Q)),
                                py_int (snd (nth a kps_xy (0, 0)%Q)))
                               (py_int (fst (nth b kps_xy (0, 0)%Q)),
                                py_int (snd (nth b kps_xy (0, 0)%Q)))
                               BLUE 2]
                       else [])
                      (frame s))
               (people_count s))
    /\ py_int kx = Z.sgn (Qnum kx) * (Z.abs (Qnum kx) / Zpos (Qden kx))
    /\ (Qabs (inject_Z (py_int kx)) <= Qabs kx)%Q
    /\ (Qabs (kx - inject_Z (py_int kx)) < 1)%Q.
Proof.
  intros j kx ky s kps_xy a b.
  split; [apply draw_keypoint_run |].
  split; [apply draw_edge_run |].
  split; [apply py_int_truncates | apply py_int_toward_zero].
Qed.


(** C9.  Once the camera is open and the model loaded, let the loop still be
    running after the iterations [pre] and let the next iteration [it] leave
    it (a failed read, the quit key, or an exception raised in the body).
    Then [main] ends; its calls are those up to the loop, those of [pre],
    those of [it], and then the release of the camera, the closing of the
    windows and the last message, in this order; the camera is released
    exactly once and the windows are closed exactly once; what the
    environment would have answered later is never asked for; and when [it]
    fails to read, its only calls are the read and the error message, so no
    read, inference or display follows the failed read.  Every run of [main]
    that ends after entering the loop releases and closes exactly once. *)
Theorem C9_cleanup_on_every_exit :
  forall (pre : list Iteration) (it : Iteration) (post : list Iteration)
         (pc : option Z),
    snd (main_loop pre None) = Next pc ->
    falls_through it pc = false ->
    main true (Ok tt) (pre ++ it :: post)
    = (start_events
         ++ (fst (main_loop pre None) ++ fst (loop_body it pc))
         ++ [EvRelease; EvDestroyAllWindows; EvPrint "Pose detection stopped."],
       exit_of (snd (loop_body it pc)))
    /\ terminated (snd (main true (Ok tt) (pre ++ it :: post))) = true
    /\ count_events is_release (fst (main true (Ok tt) (pre ++ it :: post)))
       = 1%nat
    /\ count_events is_destroy (fst (main true (Ok tt) (pre ++ it :: post)))
       = 1%nat
    /\ (read_fails it = true ->
        loop_body it pc
        = ([EvRead; EvPrint "Error: Failed to capture frame"], Break))
    /\ (forall script : list Iteration,
          terminated (snd (main true (Ok tt) script)) = true ->
          count_events is_release (fst (main true (Ok tt) script)) = 1%nat
          /\ count_events is_destroy (fst (main true (Ok tt) script)) = 1%nat).
Proof.
  assert (Hcount :
    forall pre it post pc,
      snd (main_loop pre None) = Next pc ->
      falls_through it pc = false ->
      count_events is_release (fst (main true (Ok tt) (pre ++ it :: post)))
      = 1%nat
      /\ count_events is_destroy (fst (main true (Ok tt) (pre ++ it :: post)))
         = 1%nat).
  { intros pre it post pc Hpre Hit.
    rewrite (main_run pre it post pc Hpre Hit). cbn [fst].
    destruct (main_loop_no_cleanup pre None) as [Hr Hd].
    destruct (loop_body_no_cleanup it pc) as [Hr' Hd'].
    rewrite !count_events_app, Hr, Hd, Hr', Hd'. split; reflexivity. }
  intros pre it post pc Hpre Hit.
  split; [apply main_run; assumption |].
  split.
  { rewrite (main_run pre it post pc Hpre Hit). cbn [snd].
    unfold falls_through in Hit.
    destruct (snd (loop_body it pc)); [discriminate Hit | |]; reflexivity. }
  destruct (Hcount pre it post pc Hpre Hit) as [Hr Hd].
  split; [exact Hr |]. split; [exact Hd |]. split.
  { unfold read_fails, loop_body.
    destruct (on_read it) as [[[|] captured] | e]; intros H;
      [discriminate H | reflexivity | discriminate H]. }
  intros script Hend.
  assert (Hloop : terminated (exit_of (snd (main_loop script None))) = true).
  { unfold main in Hend. cbn [negb] in Hend.
    destruct (main_loop script None) as [ev [pc' | | e]]; cbn [snd] in *;
      [discriminate Hend | reflexivity | reflexivity]. }
  destruct (main_loop_inv script None Hloop)
    as [pre' [it' [post' [pc' [Hs [Hpre' Hit']]]]]].
  subst script. apply (Hcount pre' it' post' pc' Hpre' Hit').
Qed.

(** C10.  A result whose boxes or whose keypoint array are absent is passed
    over: the body raises nothing and leaves the frame and [people_count]
    untouched, so neither boxes and labels (even when person boxes are
    present) nor the people-count overlay are drawn for it, and the results
    after it are processed as if it were not there. *)
Theorem C10_absent_fields_skip_result :
  forall (r : Result) (rest : list Result) (s : St),
    boxes r = None \/ getattr_xy (keypoints r) = None ->
    annotate_result r s = (Ok tt, s)
    /\ annotate (r :: rest) s = annotate rest s.
Proof.
  intros r rest s H.
  assert (Hskip : drawable r = false).
  { unfold drawable. destruct H as [H | H]; rewrite H;
      [reflexivity | destruct (boxes r); reflexivity]. }
  assert (Hrun : annotate_result r s = (Ok tt, s)).
  { rewrite annotate_result_run, (result_calls_skipped r Hskip),
      (count_after_skipped _ r Hskip). destruct s; reflexivity. }
  split; [exact Hrun |].
  unfold annotate. cbn [for_each]. erewrite bind_ok by exact Hrun.
  reflexivity.
Qed.

(** ** Further properties of the loop *)

Lemma loop_body_quiet (f : Frame) (results : list Result) (key : Z)
      (pc : option Z) :
  loop_body (mkIteration (Ok (true, f)) (Ok results) (Ok tt) (Ok key)) pc
  = ([EvRead; EvModel; EvImshow (paint (flat_map result_calls results) f);
      EvWaitKey],
     if key mod 256 =? 113 then Break
     else Next (fold_left count_after results pc)).
Proof.
  unfold loop_body. cbn [on_read on_model on_imshow on_waitKey negb].
  rewrite annotate_run. cbn [frame people_count].
  change 255 with (Z.ones 8). rewrite Z.land_ones by lia.
  change (2 ^ 8) with 256.
  destruct (key mod 256 =? 113); reflexivity.
Qed.

(** X1.  When an iteration reads, infers and shows without an exception, it
    leaves the loop exactly when the low byte of the polled key is 113, the
    code of [q]: the bits above the low byte do not matter, and the value -1
    that stands for "no key" keeps the loop going. *)
Theorem quit_key_low_byte :
  forall (f : Frame) (results : list Result) (key m : Z) (pc : option Z),
    (snd (loop_body (mkIteration (Ok (true, f)) (Ok results) (Ok tt) (Ok key))
                    pc) = Break
     <-> key mod 256 = 113)
    /\ snd (loop_body (mkIteration (Ok (true, f)) (Ok results) (Ok tt)
                                   (Ok (key + 256 * m))) pc)
       = snd (loop_body (mkIteration (Ok (true, f)) (Ok results) (Ok tt)
                                     (Ok key)) pc)
    /\ snd (loop_body (mkIteration (Ok (true, f)) (Ok results) (Ok tt)
                                   (Ok (-1))) pc)
       = Next (fold_left count_after results pc).
Proof.
  intros f results key m pc. rewrite !loop_body_quiet. cbn [snd].
  split; [| split].
  - destruct (Z.eqb_spec (key mod 256) 113) as [E | E].
    + split; [intros _; exact E | reflexivity].
    + split; [discriminate | contradiction].
  - rewrite Z.mul_comm, Z.mod_add by lia. reflexivity.
  - reflexivity.
Qed.


Lemma keeps_running_next (it : Iteration) (pc : option Z) :
  keeps_running it = true ->
  exists (shown : Frame) (pc' : option Z),
    loop_body it pc = ([EvRead; EvModel; EvImshow shown; EvWaitKey], Next pc').
Proof.
  unfold keeps_running. destruct it as [r m i w]. cbn [on_read on_model on_imshow on_waitKey].
  destruct r as [[[|] f] | e]; try discriminate.
  destruct m as [results | e]; try discriminate.
  destruct i as [[] | e]; try discriminate.
  destruct w as [key | e]; try discriminate.
  intros H. rewrite loop_body_quiet.
  destruct (key mod 256 =? 113); [discriminate H |].
  eexists. eexists. reflexivity.
Qed.

Lemma main_loop_keeps_running (script : list Iteration) :
  forall pc : option Z,
    forallb keeps_running script = true ->
    exists (ev : list Event) (pc' : option Z),
      main_loop script pc = (ev, Next pc')
      /\ count_events is_read ev = List.length script
      /\ count_events is_imshow ev = List.length script
      /\ List.length ev = (4 * List.length script)%nat.
Proof.
  induction script as [| it rest IH]; intros pc H.
  - exists [], pc. repeat split.
  - cbn [forallb] in H. apply andb_true_iff in H. destruct H as [Hit Hrest].
    destruct (keeps_running_next it pc Hit) as [shown [pc1 Hb]].
    destruct (IH pc1 Hrest) as [ev [pc' [Hl [Hr [Hi Hn]]]]].
    exists ([EvRead; EvModel; EvImshow shown; EvWaitKey] ++ ev), pc'.
    cbn [main_loop]. rewrite Hb, Hl.
    split; [reflexivity |].
    rewrite !count_events_app, length_app, Hr, Hi, Hn.
    cbn [List.length]. repeat split; try reflexivity. lia.
Qed.

(** X3.  The loop has no other way out than a failed read, the quit key or an
    exception: as long as every iteration reads a frame, raises nothing and
    polls a key other than [q], [main] is still running after them, it has
    read and shown one frame per iteration, and it has neither released the
    camera nor closed the windows. *)
Theorem loop_keeps_running :
  forall script : list Iteration,
    forallb keeps_running script = true ->
    snd (main true (Ok tt) script) = StillRunning
    /\ count_events is_read (fst (main true (Ok tt) script))
       = List.length script
    /\ count_events is_imshow (fst (main true (Ok tt) script))
       = List.length script
    /\ count_events is_release (fst (main true (Ok tt) script)) = 0%nat
    /\ count_events is_destroy (fst (main true (Ok tt) script)) = 0%nat.
Proof.
  intros script H.
  destruct (main_loop_keeps_running script None H) as [ev [pc' [Hl [Hr [Hi _]]]]].
  destruct (main_loop_no_cleanup script None) as [Hrel Hdes].
  unfold main. cbn [negb]. rewrite Hl in *. cbn [fst snd] in *.
  rewrite !count_events_app, Hr, Hi, Hrel, Hdes. repeat split.
Qed.




(** X5.  The [try] starts only after the model is loaded.  When the camera
    does not open, and when loading the model raises, [main] ends without
    reading a frame and without releasing the camera or closing the windows,
    whatever the environment would have answered in the loop; in the second
    case the camera was opened and the window created before, and the
    exception leaves [main]. *)
Theorem setup_failure_skips_cleanup :
  forall (on_load : res unit) (e : exn) (script : list Iteration),
    main false on_load script
    = ([EvVideoCapture; EvIsOpened; EvPrint "Error: Could not open camera"],
       Returned)
    /\ snd (main true (Raise e) script) = Propagated e
    /\ count_events is_read (fst (main true (Raise e) script)) = 0%nat
    /\ count_events is_release (fst (main true (Raise e) script)) = 0%nat
    /\ count_events is_destroy (fst (main true (Raise e) script)) = 0%nat
    /\ In EvNamedWindow (fst (main true (Raise e) script)).
Proof.
  intros on_load e script. repeat split. cbn. tauto.
Qed.


(** ** Further properties of [int] and of the label *)

Lemma py_int_monotone (x y : pyfloat) :
  (x <= y)%Q -> py_int x <= py_int y.
Proof.
  destruct x as [a b], y as [c d]. unfold Qle, py_int. cbn [Qnum Qden].
  intros H.
  rewrite <- (Z.quot_mul_cancel_r a (Zpos b) (Zpos d)) by discriminate.
  rewrite <- (Z.quot_mul_cancel_r c (Zpos d) (Zpos b)) by discriminate.
  rewrite (Z.mul_comm (Zpos d) (Zpos b)).
  apply Z.quot_le_mono; [reflexivity | exact H].
Qed.

(** X7.  A box whose float corners are ordered ([x1 <= x2] and [y1 <= y2]) is
    drawn as a rectangle whose integer corners are ordered the same way:
    dropping the fractional parts never turns the rectangle inside out. *)
Theorem rectangle_corners_stay_ordered :
  forall (c cf c1 c2 c3 c4 : pyfloat),
    (c1 <= c3)%Q -> (c2 <= c4)%Q ->
    fst (corner1 (mkBox c cf (c1, c2, c3, c4)))
    <= fst (corner2 (mkBox c cf (c1, c2, c3, c4)))
    /\ snd (corner1 (mkBox c cf (c1, c2, c3, c4)))
       <= snd (corner2 (mkBox c cf (c1, c2, c3, c4))).
Proof.
  intros c cf c1 c2 c3 c4 Hx Hy. unfold corner1, corner2. cbn [xyxy fst snd].
  split; apply py_int_monotone; assumption.
Qed.

(** X8.  The class test is made on [int(box.cls[0])]: a detection counts as a
    person exactly when its class value lies strictly between -1 and 1, so a
    fractional class such as 0.9 is a person and 1.0 is not. *)
Theorem person_class_window :
  forall box : Box,
    is_person box = true <-> (- (1) < cls box)%Q /\ (cls box < 1)%Q.
Proof.
  intros box. unfold is_person, class_id, py_int.
  rewrite Z.eqb_eq, Z.quot_small_iff by discriminate.
  destruct (cls box) as [n d]. unfold Qlt. cbn [Qnum Qden Qopp Z.abs].
  lia.
Qed.

(** X9.  [int] is symmetric about zero: a negative coordinate is cut toward
    zero like its mirror image, so the pixel of the mirrored keypoint is the
    mirrored pixel (a coordinate between -1 and 0 lands on 0, not on -1). *)
Theorem pixel_of_mirrored_keypoint :
  forall kx ky : pyfloat,
    pixel ((- kx)%Q, (- ky)%Q)
    = (- fst (pixel (kx, ky)), - snd (pixel (kx, ky))).
Proof.
  intros [a b] [c d]. unfold pixel, py_int. cbn [fst snd Qopp Qnum Qden].
  rewrite !Z.quot_opp_l by discriminate. reflexivity.
Qed.





(** ** Further properties of the drawing code *)

Lemma filter_none {A : Type} (p : A -> bool) (l : list A) :
  Forall (fun x => p x = false) l -> filter p l = [].
Proof.
  induction 1 as [| x l Hx _ IH]; [reflexivity |].
  cbn [filter]. rewrite Hx. exact IH.
Qed.

Lemma pose_calls_no_rectangle (kps_all_np : list KpRow) (i : nat) :
  filter is_rectangle (pose_calls kps_all_np i) = [].
Proof.
  apply filter_none. unfold pose_calls.
  destruct (nth_error kps_all_np i) as [kps_xy |]; [| constructor].
  apply Forall_app. split.
  - destruct (keypoint_marks kps_xy 0) as [_ [_ H]].
    eapply Forall_impl; [| exact H]. intros c Hc.
    destruct c; [discriminate Hc | | |]; reflexivity.
  - eapply Forall_impl; [| apply skeleton_lines]. intros c Hc.
    destruct c; [discriminate Hc | | |]; reflexivity.
Qed.

Lemma rectangles_of_persons (kps_all_np : list KpRow) (ps : list (nat * Box)) :
  filter is_rectangle (flat_map (person_calls kps_all_np) ps)
  = map (fun ib => rectangle_call (snd ib)) ps.
Proof.
  induction ps as [| ib rest IH]; [reflexivity |].
  cbn [flat_map map]. rewrite filter_app. unfold person_calls at 1.
  cbn [filter is_rectangle rectangle_call label_call].
  rewrite pose_calls_no_rectangle, IH. reflexivity.
Qed.

Lemma persons_boxes (bs : list Box) :
  forall i : nat, map snd (persons i bs) = filter is_person bs.
Proof.
  induction bs as [| box rest IH]; intros i; [reflexivity |].
  rewrite persons_cons. cbn [filter].
  destruct (is_person box); cbn [map snd]; rewrite IH; reflexivity.
Qed.

Lemma persons_index_bound (bs : list Box) (ib : nat * Box) :
  In ib (persons 0 bs) -> (fst ib < List.length bs)%nat.
Proof.
  destruct ib as [j box]. rewrite persons_in. intros [H _]. cbn [fst].
  apply nth_error_Some. rewrite H. discriminate.
Qed.

(** X11.  Only the keypoint rows that have a box are used: when the keypoint
    array has at least as many rows as there are boxes, any rows after these
    change nothing in what is drawn or counted. *)
Theorem surplus_keypoint_rows_are_ignored :
  forall (bs : list Box) (rows extra : list KpRow) (s : St),
    (List.length bs <= List.length rows)%nat ->
    annotate_result
      (mkResult (Some bs) (Some (mkKeypoints (Some (NdArray (rows ++ extra))))))
      s
    = annotate_result
        (mkResult (Some bs) (Some (mkKeypoints (Some (NdArray rows))))) s.
Proof.
  intros bs rows extra s H. rewrite !annotate_result_run.
  unfold result_calls, count_after.
  cbn [boxes keypoints getattr_xy xy to_numpy].
  rewrite !flat_map_concat_map.
  rewrite (map_ext_in (person_calls (rows ++ extra)) (person_calls rows));
    [reflexivity |].
  intros ib Hin. pose proof (persons_index_bound bs ib Hin) as Hlt.
  unfold person_calls, pose_calls.
  rewrite nth_error_app1 by lia. reflexivity.
Qed.

End Annotator.

Arguments mkSt {Frame} frame people_count.
Arguments frame {Frame} s.
Arguments people_count {Frame} s.
Arguments EvVideoCapture {Frame}.
Arguments EvIsOpened {Frame}.
Arguments EvSet {Frame}.
Arguments EvNamedWindow {Frame}.
Arguments EvResizeWindow {Frame}.
Arguments EvPrint {Frame} line.
Arguments EvYOLO {Frame}.
Arguments EvRead {Frame}.
Arguments EvModel {Frame}.
Arguments EvImshow {Frame} shown.
Arguments EvWaitKey {Frame}.
Arguments EvRelease {Frame}.
Arguments EvDestroyAllWindows {Frame}.
Arguments mkIteration {Frame} on_read on_model on_imshow on_waitKey.

(** ** Concrete runs on the recording canvas *)

(** An iteration that shows a frame with one person and sees no key. *)
Definition good_iteration : Iteration Canvas :=
  mkIteration (Ok (true, [])) (Ok [one_person_result]) (Ok tt) (Ok (-1)).

(** An iteration whose read fails. *)
Definition failed_read : Iteration Canvas :=
  mkIteration (Ok (false, [])) (Ok []) (Ok tt) (Ok (-1)).

(** C1, as stated, fails.  Two results with one person each: each overlay
    reads "People detected: 1" and [people_count] ends as 1, while the
    results hold 2 detections of class 0. *)
Lemma C1_count_is_not_a_total :
  annotate Canvas canvas_draw [one_person_result; one_person_result]
           (mkSt [] None)
  = (Ok tt,
     mkSt [ Rectangle (10, 20) (110, 220) GREEN 2;
            PutText "Person 0.50" (10, 12) FONT_HERSHEY_SIMPLEX (1 # 2) GREEN 2;
            PutText "People detected: 1" (10, 30) FONT_HERSHEY_SIMPLEX 1 GREEN 2;
            Rectangle (10, 20) (110, 220) GREEN 2;
            PutText "Person 0.50" (10, 12) FONT_HERSHEY_SIMPLEX (1 # 2) GREEN 2;
            PutText "People detected: 1" (10, 30) FONT_HERSHEY_SIMPLEX 1 GREEN 2 ]
          (Some 1))
  /\ total_people [one_person_result; one_person_result] = 2.
Proof. split; reflexivity. Qed.

(** C2, as stated, fails.  With the boxes absent, or with an empty box list
    and the keypoints absent, the frame comes back with nothing drawn on it,
    not even the "People detected: 0" overlay. *)
Lemma C2_absent_detections_get_no_overlay :
  annotate Canvas canvas_draw
           [mkResult None (Some (mkKeypoints (Some (NdArray []))))]
           (mkSt [] None)
  = (Ok tt, mkSt [] None)
  /\ annotate Canvas canvas_draw [mkResult (Some []) None] (mkSt [] None)
     = (Ok tt, mkSt [] None)
  /\ canvas_draw (PutText "People detected: 0" (10, 30)
                          FONT_HERSHEY_SIMPLEX 1 GREEN 2) []
     <> [].
Proof. split; [reflexivity | split; [reflexivity | discriminate]]. Qed.


(** C5 at a detection of class 16. *)
Lemma C5_non_person_draws_nothing_witness :
  class_id a_dog <> 0
  /\ draw_box Canvas canvas_draw [short_row] 0 a_dog (mkSt [] (Some 0))
     = (Ok tt, mkSt [] (Some 0)).
Proof.
  assert (H : class_id a_dog <> 0) by discriminate.
  split; [exact H |].
  apply (C5_non_person_draws_nothing Canvas canvas_draw [short_row] 0 a_dog
           (mkSt [] (Some 0)) H).
Defined.


(** C7, as stated, fails.  The keypoint (10.75, 20.25) gets its marker at
    (10, 20) and its name at (15, 15); the nearest pixel column is 11, and 10
    is more than one half away from 10.75. *)
Lemma C7_marker_not_at_nearest_pixel :
  draw_keypoint Canvas canvas_draw 0 (43 # 4, 81 # 4) (mkSt [] None)
  = (Ok tt,
     mkSt [ Circle (10, 20) 4 RED (-1);
            PutText "nose" (15, 15) FONT_HERSHEY_SIMPLEX (2 # 5) YELLOW 1 ]
          None)
  /\ py_round (43 # 4) = 11
  /\ nearest_int 11 (43 # 4)
  /\ ~ nearest_int 10 (43 # 4).
Proof.
  split; [reflexivity |]. split; [reflexivity |]. split.
  - unfold nearest_int. vm_compute. discriminate.
  - unfold nearest_int. vm_compute. intros H. apply H. reflexivity.
Qed.

(** C9 at a run of one good iteration followed by a failed read: the third
    scripted iteration is never reached. *)
Lemma C9_cleanup_on_every_exit_witness :
  snd (main_loop Canvas canvas_draw [good_iteration] None) = Next (Some 1)
  /\ falls_through Canvas canvas_draw failed_read (Some 1) = false
  /\ main Canvas canvas_draw true (Ok tt)
          ([good_iteration] ++ failed_read :: [good_iteration])
     = ([ EvVideoCapture; EvIsOpened; EvSet; EvSet; EvNamedWindow;
          EvResizeWindow; EvPrint "Loading YOLO11 Pose model..."; EvYOLO;
          EvPrint "Starting pose detection. Press 'q' to quit.";
          EvRead; EvModel;
          EvImshow
            [ Rectangle (10, 20) (110, 220) GREEN 2;
              PutText "Person 0.50" (10, 12) FONT_HERSHEY_SIMPLEX (1 # 2)
                      GREEN 2;
              PutText "People detected: 1" (10, 30) FONT_HERSHEY_SIMPLEX 1
                      GREEN 2 ];
          EvWaitKey;
          EvRead; EvPrint "Error: Failed to capture frame";
          EvRelease; EvDestroyAllWindows; EvPrint "Pose detection stopped." ],
        Returned).
Proof.
  split; [reflexivity |]. split; [reflexivity |].
  exact (proj1 (C9_cleanup_on_every_exit Canvas canvas_draw
                  [good_iteration] failed_read [good_iteration] (Some 1)
                  eq_refl eq_refl)).
Defined.

(** C10 at a result that has a person box but no keypoints. *)
Lemma C10_absent_fields_skip_result_witness :
  (boxes (mkResult (Some [a_person]) None) = None
   \/ getattr_xy (keypoints (mkResult (Some [a_person]) None)) = None)
  /\ annotate_result Canvas canvas_draw (mkResult (Some [a_person]) None)
                     (mkSt [] None)
     = (Ok tt, mkSt [] None)
  /\ annotate Canvas canvas_draw
              [mkResult (Some [a_person]) None; one_person_result]
              (mkSt [] None)
     = annotate Canvas canvas_draw [one_person_result] (mkSt [] None).
Proof.
  split; [right; reflexivity |].
  apply (C10_absent_fields_skip_result Canvas canvas_draw
           (mkResult (Some [a_person]) None) [one_person_result] (mkSt [] None)).
  right; reflexivity.
Defined.

(** The quit key on the first iteration: the frame is shown, then the camera
    is released and the windows are closed. *)
Example main_quit_key :
  main Canvas canvas_draw true (Ok tt)
       [mkIteration (Ok (true, [])) (Ok []) (Ok tt) (Ok 113); good_iteration]
  = (start_events Canvas
       ++ [EvRead; EvModel; EvImshow []; EvWaitKey;
           EvRelease; EvDestroyAllWindows; EvPrint "Pose detection stopped."],
     Returned).
Proof. reflexivity. Qed.

(** An exception raised by the model on the second iteration: the cleanup
    runs and the exception leaves [main]. *)
Example main_model_raises :
  main Canvas canvas_draw true (Ok tt)
       [good_iteration;
        mkIteration (Ok (true, [])) (Raise (ExternalError "inference"))
                    (Ok tt) (Ok (-1))]
  = (start_events Canvas
       ++ fst (loop_body Canvas canvas_draw good_iteration None)
       ++ [EvRead; EvModel;
           EvRelease; EvDestroyAllWindows; EvPrint "Pose detection stopped."],
     Propagated (ExternalError "inference")).
Proof. reflexivity. Qed.

(** A camera that does not open: nothing is released. *)
Example main_camera_closed :
  main Canvas canvas_draw false (Ok tt) [good_iteration]
  = ([EvVideoCapture; EvIsOpened; EvPrint "Error: Could not open camera"],
     Returned).
Proof. reflexivity. Qed.

(** ** Further properties on the recording canvas *)

Lemma paint_canvas (calls : list DrawCall) :
  forall f : Canvas, paint Canvas canvas_draw calls f = f ++ calls.
Proof.
  induction calls as [| c rest IH]; intros f.
  - cbn. rewrite app_nil_r. reflexivity.
  - change (paint Canvas canvas_draw (c :: rest) f)
      with (paint Canvas canvas_draw rest (canvas_draw c f)).
    rewrite IH. unfold canvas_draw. rewrite <- app_assoc. reflexivity.
Qed.

(** X12.  On a clean frame, the rectangles drawn for a result are those of
    its class-0 boxes, in the order of the boxes, and the number that the
    overlay shows, which is also the final [people_count], is the number of
    rectangles drawn. *)
Theorem overlay_counts_the_rectangles :
  forall (bs : list Box) (k : KpsArray) (pc : option Z),
    filter is_rectangle
      (frame (snd (annotate_result Canvas canvas_draw
                     (mkResult (Some bs) (Some (mkKeypoints (Some k))))
                     (mkSt [] pc))))
    = map rectangle_call (filter is_person bs)
    /\ people_count
         (snd (annotate_result Canvas canvas_draw
                 (mkResult (Some bs) (Some (mkKeypoints (Some k))))
                 (mkSt [] pc)))
       = Some (Z.of_nat (List.length (map rectangle_call (filter is_person bs))))
    /\ last (frame (snd (annotate_result Canvas canvas_draw
                           (mkResult (Some bs) (Some (mkKeypoints (Some k))))
                           (mkSt [] pc))))
            (overlay_call (-1))
       = overlay_call
           (Z.of_nat (List.length (map rectangle_call (filter is_person bs)))).
Proof.
  intros bs k pc. rewrite annotate_result_run.
  unfold result_calls, count_after.
  cbn [boxes keypoints getattr_xy xy snd frame people_count].
  rewrite paint_canvas. cbn [app]. rewrite length_map.
  fold (count_people bs). split; [| split].
  - rewrite filter_app. cbn [filter is_rectangle overlay_call].
    rewrite app_nil_r, rectangles_of_persons.
    rewrite <- (persons_boxes bs 0), map_map. reflexivity.
  - reflexivity.
  - apply last_last.
Qed.

(** X3 at two good iterations. *)
Lemma loop_keeps_running_witness :
  forallb (keeps_running Canvas) [good_iteration; good_iteration] = true
  /\ snd (main Canvas canvas_draw true (Ok tt) [good_iteration; good_iteration])
     = StillRunning
  /\ count_events Canvas (is_read Canvas)
       (fst (main Canvas canvas_draw true (Ok tt)
               [good_iteration; good_iteration]))
     = 2%nat
  /\ count_events Canvas (is_imshow Canvas)
       (fst (main Canvas canvas_draw true (Ok tt)
               [good_iteration; good_iteration]))
     = 2%nat
  /\ count_events Canvas (is_release Canvas)
       (fst (main Canvas canvas_draw true (Ok tt)
               [good_iteration; good_iteration]))
     = 0%nat
  /\ count_events Canvas (is_destroy Canvas)
       (fst (main Canvas canvas_draw true (Ok tt)
               [good_iteration; good_iteration]))
     = 0%nat.
Proof.
  split; [reflexivity |].
  exact (loop_keeps_running Canvas canvas_draw
           [good_iteration; good_iteration] eq_refl).
Defined.


(** X7 at the box (10.5, 20.5)-(10.75, 220.25): both columns become 10. *)
Lemma rectangle_corners_stay_ordered_witness :
  ((21 # 2) <= (43 # 4))%Q
  /\ ((41 # 2) <= (881 # 4))%Q
  /\ fst (corner1 (mkBox 0 (1 # 2) (21 # 2, 41 # 2, 43 # 4, 881 # 4)))
     <= fst (corner2 (mkBox 0 (1 # 2) (21 # 2, 41 # 2, 43 # 4, 881 # 4)))
  /\ snd (corner1 (mkBox 0 (1 # 2) (21 # 2, 41 # 2, 43 # 4, 881 # 4)))
     <= snd (corner2 (mkBox 0 (1 # 2) (21 # 2, 41 # 2, 43 # 4, 881 # 4))).
Proof.
  assert (Hx : ((21 # 2) <= (43 # 4))%Q) by (unfold Qle; cbn; lia).
  assert (Hy : ((41 # 2) <= (881 # 4))%Q) by (unfold Qle; cbn; lia).
  split; [exact Hx |]. split; [exact Hy |].
  exact (rectangle_corners_stay_ordered 0 (1 # 2) (21 # 2) (41 # 2) (43 # 4)
           (881 # 4) Hx Hy).
Defined.


(** X11 at one person, one row for it and one row too many. *)
Lemma surplus_keypoint_rows_are_ignored_witness :
  (List.length [a_person] <= List.length [short_row])%nat
  /\ annotate_result Canvas canvas_draw
       (mkResult (Some [a_person])
                 (Some (mkKeypoints (Some (NdArray ([short_row] ++ [full_row]))))))
       (mkSt [] None)
     = annotate_result Canvas canvas_draw
         (mkResult (Some [a_person])
                   (Some (mkKeypoints (Some (NdArray [short_row])))))
         (mkSt [] None).
Proof.
  assert (H : (List.length [a_person] <= List.length [short_row])%nat)
    by (cbn; lia).
  split; [exact H |].
  exact (surplus_keypoint_rows_are_ignored Canvas canvas_draw [a_person]
           [short_row] [full_row] (mkSt [] None) H).
Defined.
